(** * Stream role resolution of the prebuffer mixin

    A shallow embedding of [plugins/prebuffer-mixin/src/stream-settings.ts]:
    the default prebuffer selector, the enabled-streams resolver, the
    best-match scorer and the role resolver, followed by the properties
    proved about them.

    Conventions of the embedding.
    - A JavaScript value that may be [undefined] is an [option]; [None] is
      [undefined].
    - A JavaScript [number] is either [NaN] or an integer [Num z].  Stream
      dimensions and pixel counts are integers, and on integers below
      2^53 the double arithmetic of the source ([*], [-], [Math.abs], [<])
      is the exact one used here.  Above 2^53 the source rounds and the
      integer arithmetic does not: a statement that depends on the value
      of a score is made under [exact_scores], which keeps the target, the
      dimensions, their product and its difference with the target among
      the safe integers.
    - A stream list is a [list]; the [for ... of] loop of [pickBestStream]
      is a left fold over it, with the pair of its two local variables as
      the state. *)

From Stdlib Require Import ZArith List String Bool Lia Permutation.
Import ListNotations.

#[local] Open Scope string_scope.
#[local] Open Scope list_scope.
#[local] Open Scope Z_scope.

(** ** JavaScript numbers *)

Module Js.

Inductive number : Type :=
| NaN : number
| Num : Z -> number.

(** [ToNumber] on a value that is a number or [undefined]. *)
Definition toNumber (v : option Z) : number :=
  match v with
  | Some z => Num z
  | None => NaN
  end.

Definition mul (a b : number) : number :=
  match a, b with
  | Num x, Num y => Num (x * y)
  | _, _ => NaN
  end.

Definition sub (a b : number) : number :=
  match a, b with
  | Num x, Num y => Num (x - y)
  | _, _ => NaN
  end.

(** [Math.abs] *)
Definition abs (a : number) : number :=
  match a with
  | Num x => Num (Z.abs x)
  | NaN => NaN
  end.

(** [a < b]: every comparison with [NaN] is false. *)
Definition lt (a b : number) : bool :=
  match a, b with
  | Num x, Num y => x <? y
  | _, _ => false
  end.

(** [Number.isNaN] *)
Definition isNaN (a : number) : bool :=
  match a with
  | NaN => true
  | Num _ => false
  end.

(** [Number.MAX_SAFE_INTEGER], 2^53 - 1. *)
Definition MAX_SAFE_INTEGER : Z := 9007199254740991.

(** [a === b] on values that are a string or [undefined]. *)
Definition strict_eq (a b : option string) : bool :=
  match a, b with
  | Some x, Some y => String.eqb x y
  | None, None => true
  | _, _ => false
  end.

(** [a !== s] for a string literal [s]. *)
Definition strict_neq (a : option string) (s : string) : bool :=
  negb (strict_eq a (Some s)).

(** [arr.includes(v)] on an array of strings, for [v] a string or
    [undefined]. *)
Definition includes (arr : list string) (v : option string) : bool :=
  match v with
  | Some x => existsb (String.eqb x) arr
  | None => false
  end.

End Js.

(** ** Data model *)

(** The [video] member of a stream descriptor. *)
Record VideoStreamOptions : Type := mkVideo {
  width : option Z;
  height : option Z;
}.

(** [ResponseMediaStreamOptions], restricted to the members read by this
    file. *)
Record ResponseMediaStreamOptions : Type := mkMso {
  name : option string;
  source : option string;
  container : option string;
  video : option VideoStreamOptions;
}.

(** [StreamStorageSetting]: the members of a role's setting that take part
    in the resolution. *)
Record StreamStorageSetting : Type := mkSetting {
  title : string;
  prefersPrebuffer : bool;
  preferredResolution : Z;
}.

(** The keys of [streamTypes]. *)
Inductive StreamKey : Type :=
| defaultStream
| remoteStream
| lowResolutionStream
| recordingStream
| remoteRecordingStream.

(** The object literal passed to [getStreamTypes]. *)
Definition streamTypes (key : StreamKey) : StreamStorageSetting :=
  match key with
  | defaultStream =>
      mkSetting "Local Stream" true (3840 * 2160)
  | remoteStream =>
      mkSetting "Remote (Medium Resolution) Stream" false (1280 * 720)
  | lowResolutionStream =>
      mkSetting "Low Resolution Stream" false (480 * 360)
  | recordingStream =>
      mkSetting "Local Recording Stream" true (3840 * 2160)
  | remoteRecordingStream =>
      mkSetting "Remote Recording Stream" true (1280 * 720)
  end.

(** What the functions read from the [StorageSettings] object:
    [hasValue.enabledStreams], [values.enabledStreams] and [values[key]]
    for a role key. *)
Record StorageSettings : Type := mkStorage {
  hasValue_enabledStreams : bool;
  values_enabledStreams : list string;
  values : StreamKey -> option string;
}.

(** The object returned by [getMediaStream]. *)
Record ResolvedStream : Type := mkResolved {
  rs_title : string;
  isDefault : bool;
  stream : option ResponseMediaStreamOptions;
}.

Abbreviation mso := ResponseMediaStreamOptions.

(** ** Operations *)

(** The predicate of the [find] in [getDefaultPrebufferedStreams]. *)
Definition nonCloud (m : mso) : bool :=
  Js.strict_neq (source m) "cloud" && Js.strict_neq (container m) "rawvideo".

Definition getDefaultPrebufferedStreams (msos : option (list mso))
  : option (list mso) :=
  match msos with
  | None => None
  | Some l =>
      let firstNonCloudStream := find nonCloud l in
      match firstNonCloudStream with
      | Some m => Some [m]
      | None => Some []
      end
  end.

Definition getPrebufferedStreams (storageSettings : StorageSettings)
  (msos : option (list mso)) : option (list mso) :=
  match msos with
  | None => None
  | Some l =>
      if negb (hasValue_enabledStreams storageSettings)
      then getDefaultPrebufferedStreams msos
      else Some (filter
                   (fun m => Js.includes (values_enabledStreams storageSettings)
                                         (name m)) l)
  end.

(** [mso.video?.width] and [mso.video?.height]. *)
Definition video_width (m : mso) : option Z :=
  match video m with
  | Some v => width v
  | None => None
  end.

Definition video_height (m : mso) : option Z :=
  match video m with
  | Some v => height v
  | None => None
  end.

(** [Math.abs(mso.video?.width * mso.video?.height - resolution)] *)
Definition score (resolution : Z) (m : mso) : Js.number :=
  Js.abs (Js.sub (Js.mul (Js.toNumber (video_width m))
                         (Js.toNumber (video_height m)))
                 (Js.Num resolution)).

(** The locals [best] and [bestScore] of [pickBestStream].  [bestScore]
    starts [undefined], which [<] reads as [NaN]. *)
Definition pick_state : Type := (option mso * Js.number)%type.

Definition pick_init : pick_state := (None, Js.NaN).

(** One iteration of the loop body. *)
Definition pick_step (resolution : Z) (st : pick_state) (m : mso)
  : pick_state :=
  let '(best, bestScore) := st in
  let score := score resolution m in
  if (match best with None => true | Some _ => false end)
     || Js.lt score bestScore
  then (Some m,
        if Js.isNaN score then Js.Num Js.MAX_SAFE_INTEGER else score)
  else st.

Definition pick_loop (resolution : Z) (l : list mso) (st : pick_state)
  : pick_state :=
  fold_left (pick_step resolution) l st.

Definition pickBestStream (msos : option (list mso)) (resolution : Z)
  : option mso :=
  match msos with
  | None => None
  | Some l => fst (pick_loop resolution l pick_init)
  end.

Section CreateStreamSettings.

(** The [storageSettings] captured by the closures. *)
Variable storageSettings : StorageSettings.

(** The local [prebufferPreferenceStreams] of [getDefaultMediaStream];
    [enabledStreams?.length > 0] is false on [undefined]. *)
Definition prebufferPreferenceStreams (v : StreamStorageSetting)
  (msos : option (list mso)) : option (list mso) :=
  let enabledStreams := getPrebufferedStreams storageSettings msos in
  if prefersPrebuffer v
     && (match enabledStreams with
         | Some e => (0 <? Z.of_nat (List.length e))
         | None => false
         end)
  then enabledStreams
  else msos.

Definition getDefaultMediaStream (v : StreamStorageSetting)
  (msos : option (list mso)) : option mso :=
  pickBestStream (prebufferPreferenceStreams v msos) (preferredResolution v).

(** [msos?.find(mso => mso.name === value)] *)
Definition find_named (value : option string) (msos : option (list mso))
  : option mso :=
  match msos with
  | None => None
  | Some l => find (fun m => Js.strict_eq (name m) value) l
  end.

Definition getMediaStream (key : StreamKey) (msos : option (list mso))
  : ResolvedStream :=
  let v := streamTypes key in
  let value := values storageSettings key in
  let isDefault := Js.strict_eq value (Some "Default") in
  let stream := find_named value msos in
  if isDefault || (match stream with None => true | Some _ => false end)
  then mkResolved (title (streamTypes key)) true
                  (getDefaultMediaStream v msos)
  else mkResolved (title (streamTypes key)) isDefault stream.

End CreateStreamSettings.

(** ** Sample streams *)

Module Samples.

Definition local (n : string) (w h : Z) : mso :=
  mkMso (Some n) (Some "local") (Some "h264")
        (Some (mkVideo (Some w) (Some h))).

Definition s1080p : mso := local "1080p" 1920 1080.
Definition s4k : mso := local "4k" 3840 2160.

(** A stream whose descriptor has no [video] member. *)
Definition sUnknown : mso :=
  mkMso (Some "unknown") (Some "local") (Some "h264") None.

(** A stream of 2^27 by 2^27 pixels, 2^54 in all. *)
Definition sHuge : mso := local "huge" 134217728 134217728.

Definition cloud1 : mso := mkMso (Some "cloud1") (Some "cloud") None None.
Definition local1 : mso :=
  mkMso (Some "local1") (Some "local") (Some "h264") None.

(** Two streams of the same pixel count. *)
Definition landscape : mso := local "landscape" 1920 1080.
Definition portrait : mso := local "portrait" 1080 1920.

(** A stream that carries the name of the sentinel. *)
Definition sDefault : mso := local "Default" 640 480.

(** Every role set to ["Default"], [enabledStreams] never set. *)
Definition unset : StorageSettings :=
  mkStorage false [] (fun _ => Some "Default").

(** Every role set to the stream name [n], [enabledStreams] never set. *)
Definition chose (n : string) : StorageSettings :=
  mkStorage false [] (fun _ => Some n).

(** Every role set to ["Default"], [enabledStreams] set to [names]. *)
Definition enabled (names : list string) : StorageSettings :=
  mkStorage true names (fun _ => Some "Default").

End Samples.

(** ** Predicates used in the statements *)

(** Both dimensions of the stream are present. *)
Definition hasResolution (m : mso) : bool :=
  match video_width m, video_height m with
  | Some _, Some _ => true
  | _, _ => false
  end.

(** The stream is neither a cloud stream nor raw video. *)
Definition eligible (m : mso) : Prop :=
  source m <> Some "cloud" /\ container m <> Some "rawvideo".

(** Every candidate of [l] with a numeric score scores above [s]. *)
Definition all_gt (r s : Z) (l : list mso) : Prop :=
  forall x t, In x l -> score r x = Js.Num t -> s < t.

(** Every candidate of [l] with a numeric score scores [s] or more. *)
Definition all_ge (r s : Z) (l : list mso) : Prop :=
  forall x t, In x l -> score r x = Js.Num t -> s <= t.

(** [l1] is obtained from [l2] by deleting elements, order kept. *)
Inductive subsequence {A : Type} : list A -> list A -> Prop :=
| subseq_nil : subsequence [] []
| subseq_skip : forall x l1 l2, subsequence l1 l2 -> subsequence l1 (x :: l2)
| subseq_keep : forall x l1 l2,
    subsequence l1 l2 -> subsequence (x :: l1) (x :: l2).

(** The score [bestScore] takes when [m] becomes [best]. *)
Definition held_score (r : Z) (m : mso) : Z :=
  match score r m with
  | Js.NaN => Js.MAX_SAFE_INTEGER
  | Js.Num t => t
  end.

(** [storageSettings] with [values.enabledStreams] replaced. *)
Definition with_enabledStreams (st : StorageSettings) (names : list string)
  : StorageSettings :=
  mkStorage (hasValue_enabledStreams st) names (values st).

(** The names of [names] carried by some stream of [l]. *)
Definition current_names (l : list mso) (names : list string) : list string :=
  filter (fun n => existsb (fun m => Js.strict_eq (name m) (Some n)) l) names.

(** ** The range of exact arithmetic *)

(** [Number.isSafeInteger] on an integer: at most 2^53 - 1 in absolute
    value.  A safe integer is a double, and an operation on doubles whose
    exact result is a safe integer returns that result. *)
Definition isSafeInteger (z : Z) : bool :=
  (- Js.MAX_SAFE_INTEGER <=? z) && (z <=? Js.MAX_SAFE_INTEGER).

Definition isSafeDimension (v : option Z) : bool :=
  match v with
  | Some z => isSafeInteger z
  | None => true
  end.

(** The dimensions of [m] are safe integers, and so are the two
    intermediate results of its score for the target [r]: the product of
    the dimensions and the difference of that product with [r]. *)
Definition exact_score (r : Z) (m : mso) : bool :=
  isSafeDimension (video_width m) && isSafeDimension (video_height m)
  && match video_width m, video_height m with
     | Some w, Some h => isSafeInteger (w * h) && isSafeInteger (w * h - r)
     | _, _ => true
     end.

(** The target [r] is a safe integer and the score of every candidate of
    [l] is computed exactly. *)
Definition exact_scores (r : Z) (l : list mso) : bool :=
  isSafeInteger r && forallb (exact_score r) l.

(** ** The settings options *)

(** A template substitution [${v}] of a value that is a string or
    [undefined]. *)
Definition template (v : option string) : string :=
  match v with
  | Some x => x
  | None => "undefined"
  end.

(** The [description] member of the entries of [streamTypes]. *)
Definition description (key : StreamKey) : string :=
  match key with
  | defaultStream =>
      "The media stream to use when streaming on your local network. This stream should be prebuffered. Recommended resolution: 1920x1080 to 4K."
  | remoteStream =>
      "The media stream to use when streaming from outside your local network. Selecting a low birate stream is recommended. Recommended resolution: 1270x720."
  | lowResolutionStream =>
      "The media stream to use for low resolution output, such as Apple Watch and Video Analysis. Recommended resolution: 480x360."
  | recordingStream =>
      "The media stream to use when recording to local storage such as an NVR. This stream should be prebuffered. Recommended resolution: 1920x1080 to 4K."
  | remoteRecordingStream =>
      "The media stream to use when recording to cloud storage such as HomeKit Secure Video clips in iCloud. This stream should be prebuffered. Recommended resolution: 1270x720."
  end.

(** How an evaluation ends: with a value, or with an exception thrown. *)
Inductive outcome (A : Type) : Type :=
| Returned : A -> outcome A
| Threw : outcome A.

Arguments Returned {A} _.
Arguments Threw {A}.

Definition bind {A B : Type} (x : outcome A) (f : A -> outcome B)
  : outcome B :=
  match x with
  | Returned a => f a
  | Threw => Threw
  end.

Notation "x <- c1 ;; c2" := (bind c1 (fun x => c2))
  (at level 61, c1 at next level, right associativity).

(** The object built by [createStreamOptions]. *)
Record StreamOptions : Type := mkStreamOptions {
  so_defaultValue : string;
  so_description : string;
  so_choices : list (option string);
  so_hide : bool;
}.

(** The [enabledStreams] entry built by [onGet]. *)
Record EnabledStreamsOptions : Type := mkEnabledOptions {
  es_defaultValue : option (list (option string));
  es_choices : list (option string);
  es_hide : bool;
}.

(** The object returned by [onGet].  An entry that the object lacks is
    [None]; a transcode entry is the object [hideTranscode], given by its
    [hide] member, [None] for the empty object. *)
Record Options : Type := mkOptions {
  o_enabledStreams : option EnabledStreamsOptions;
  o_streams : StreamKey -> option StreamOptions;
  o_transcodeStreams : option bool;
  o_missingCodecParameters : option bool;
  o_videoDecoderArguments : option bool;
}.

(** What [await device.mixinDevice.getVideoStreamOptions()] gives: an
    exception, or the stream list. *)
Inductive fetched : Type :=
| Rejected : fetched
| Fulfilled : option (list mso) -> fetched.

Section StreamSettingsOptions.

Variable storageSettings : StorageSettings.

(** [createStreamOptions], called with [streamTypes[key]].  [msos.map]
    throws on an undefined list and [.name] throws on an undefined
    stream. *)
Definition createStreamOptions (key : StreamKey) (msos : option (list mso))
  : outcome StreamOptions :=
  match msos with
  | None => Threw
  | Some l =>
      let choices := Some "Default" :: map name l in
      match getDefaultMediaStream storageSettings (streamTypes key) msos with
      | None => Threw
      | Some d =>
          let defaultValue := name d in
          Returned
            (mkStreamOptions
               "Default"
               (description key ++ " The default for this stream is "
                  ++ template defaultValue ++ ".")
               choices
               false)
      end
  end.

(** The body of the [try] block of [onGet]. *)
Definition onGet_try (hideTranscode : option bool) (f : fetched)
  : outcome Options :=
  match f with
  | Rejected => Threw
  | Fulfilled msos =>
      let defaultValue :=
        option_map (map name) (getDefaultPrebufferedStreams msos) in
      match msos with
      | None => Threw
      | Some l =>
          let enabledStreams :=
            mkEnabledOptions defaultValue (map name l) false in
          if 1 <? Z.of_nat (List.length l)
          then
            d <- createStreamOptions defaultStream msos ;;
            r <- createStreamOptions remoteStream msos ;;
            w <- createStreamOptions lowResolutionStream msos ;;
            c <- createStreamOptions recordingStream msos ;;
            k <- createStreamOptions remoteRecordingStream msos ;;
            Returned
              (mkOptions (Some enabledStreams)
                 (fun key =>
                    match key with
                    | defaultStream => Some d
                    | remoteStream => Some r
                    | lowResolutionStream => Some w
                    | recordingStream => Some c
                    | remoteRecordingStream => Some k
                    end)
                 hideTranscode hideTranscode hideTranscode)
          else
            Returned
              (mkOptions (Some enabledStreams) (fun _ => None)
                 hideTranscode hideTranscode hideTranscode)
      end
  end.

(** [onGet], as a function of [device.mixins], of what
    [getTranscodeMixinProviderId()] returns and of the outcome of the
    stream query.  The second component tells whether the [catch] block
    ran and logged the error. *)
Definition onGet (mixins : option (list string)) (providerId : option string)
  (f : fetched) : Options * bool :=
  let hideTranscode :=
    if (match mixins with
        | Some m => Js.includes m providerId
        | None => false
        end)
    then Some false
    else None in
  match onGet_try hideTranscode f with
  | Returned o => (o, false)
  | Threw =>
      (mkOptions None (fun _ => None)
         hideTranscode hideTranscode hideTranscode,
       true)
  end.

(** The accessors returned by [createStreamSettings]. *)
Definition getDefaultStream (msos : option (list mso)) : ResolvedStream :=
  getMediaStream storageSettings defaultStream msos.

Definition getRemoteStream (msos : option (list mso)) : ResolvedStream :=
  getMediaStream storageSettings remoteStream msos.

Definition getLowResolutionStream (msos : option (list mso))
  : ResolvedStream :=
  getMediaStream storageSettings lowResolutionStream msos.

Definition getRecordingStream (msos : option (list mso)) : ResolvedStream :=
  getMediaStream storageSettings recordingStream msos.

Definition getRemoteRecordingStream (msos : option (list mso))
  : ResolvedStream :=
  getMediaStream storageSettings remoteRecordingStream msos.

End StreamSettingsOptions.

(** * Properties *)

(** ** JavaScript primitives *)

Lemma strict_eq_true (a b : option string) :
  Js.strict_eq a b = true <-> a = b.
Proof.
  destruct a as [x|], b as [y|]; simpl; try (split; congruence).
  rewrite String.eqb_eq. split; congruence.
Qed.

Lemma strict_eq_false (a b : option string) :
  Js.strict_eq a b = false <-> a <> b.
Proof.
  rewrite <- strict_eq_true. destruct (Js.strict_eq a b); split; congruence.
Qed.

Lemma strict_neq_true (a : option string) (s : string) :
  Js.strict_neq a s = true <-> a <> Some s.
Proof.
  unfold Js.strict_neq. rewrite negb_true_iff. apply strict_eq_false.
Qed.

Lemma includes_true (arr : list string) (v : option string) :
  Js.includes arr v = true <-> exists n, v = Some n /\ In n arr.
Proof.
  destruct v as [x|]; simpl.
  - rewrite existsb_exists. split.
    + intros (y & Hy & E). apply String.eqb_eq in E. subst y. eauto.
    + intros (n & E & Hn). injection E as ->. exists n.
      split; [assumption | apply String.eqb_refl].
  - split; [discriminate | intros (n & E & _); discriminate].
Qed.

Lemma nonCloud_true (m : mso) : nonCloud m = true <-> eligible m.
Proof.
  unfold nonCloud, eligible.
  rewrite andb_true_iff, !strict_neq_true. reflexivity.
Qed.

Lemma nonCloud_false (m : mso) : nonCloud m = false <-> ~ eligible m.
Proof.
  rewrite <- nonCloud_true. destruct (nonCloud m); split; congruence.
Qed.

(** ** The score *)

Lemma score_NaN (r : Z) (m : mso) :
  score r m = Js.NaN <-> hasResolution m = false.
Proof.
  unfold score, hasResolution.
  destruct (video_width m), (video_height m); simpl; split; congruence.
Qed.

Lemma score_Num (r : Z) (m : mso) :
  (exists t, score r m = Js.Num t) <-> hasResolution m = true.
Proof.
  unfold score, hasResolution.
  destruct (video_width m), (video_height m); simpl; split;
    try congruence; try (intros [t Ht]; discriminate); eauto.
Qed.

Lemma score_nonneg (r : Z) (m : mso) (t : Z) : score r m = Js.Num t -> 0 <= t.
Proof.
  unfold score.
  destruct (video_width m), (video_height m); simpl; try discriminate.
  intros [= <-]. apply Z.abs_nonneg.
Qed.

Lemma held_score_Num (r : Z) (m : mso) (t : Z) :
  score r m = Js.Num t -> held_score r m = t.
Proof. unfold held_score. intros ->. reflexivity. Qed.

Lemma held_score_NaN (r : Z) (m : mso) :
  score r m = Js.NaN -> held_score r m = Js.MAX_SAFE_INTEGER.
Proof. unfold held_score. intros ->. reflexivity. Qed.

(** ** The loop of [pickBestStream] *)

Lemma pick_step_init (r : Z) (m : mso) :
  pick_step r pick_init m = (Some m, Js.Num (held_score r m)).
Proof.
  unfold pick_step, pick_init, held_score. simpl.
  destruct (score r m); reflexivity.
Qed.

Lemma pick_step_NaN (r : Z) (b : mso) (bs : Js.number) (m : mso) :
  score r m = Js.NaN -> pick_step r (Some b, bs) m = (Some b, bs).
Proof. unfold pick_step. intros ->. reflexivity. Qed.

Lemma pick_step_lt (r : Z) (b : mso) (bs : Z) (m : mso) (t : Z) :
  score r m = Js.Num t -> t < bs ->
  pick_step r (Some b, Js.Num bs) m = (Some m, Js.Num t).
Proof.
  unfold pick_step. intros -> H. simpl.
  apply Z.ltb_lt in H. rewrite H. reflexivity.
Qed.

Lemma pick_step_ge (r : Z) (b : mso) (bs : Z) (m : mso) (t : Z) :
  score r m = Js.Num t -> bs <= t ->
  pick_step r (Some b, Js.Num bs) m = (Some b, Js.Num bs).
Proof.
  unfold pick_step. intros -> H. simpl.
  apply Z.ltb_ge in H. rewrite H. reflexivity.
Qed.

Lemma pick_loop_cons (r : Z) (m : mso) (l : list mso) (st : pick_state) :
  pick_loop r (m :: l) st = pick_loop r l (pick_step r st m).
Proof. reflexivity. Qed.

(** What the loop returns when it starts holding [b] with score [bs]: it
    either keeps [b], no candidate scoring below [bs], or ends on the first
    candidate of least score. *)
Lemma pick_loop_held (r : Z) (l : list mso) :
  forall (b : mso) (bs : Z),
    (pick_loop r l (Some b, Js.Num bs) = (Some b, Js.Num bs)
     /\ all_ge r bs l)
    \/ (exists l1 m l2 s,
           l = l1 ++ m :: l2
           /\ pick_loop r l (Some b, Js.Num bs) = (Some m, Js.Num s)
           /\ score r m = Js.Num s /\ s < bs
           /\ all_gt r s l1 /\ all_ge r s l2).
Proof.
  induction l as [|a l IH]; intros b bs.
  - left. split; [reflexivity | intros x t []].
  - rewrite pick_loop_cons.
    destruct (score r a) as [|t] eqn:Ea.
    + rewrite (pick_step_NaN _ _ _ _ Ea).
      destruct (IH b bs) as [[E G] | (l1 & m & l2 & s & El & E & Em & Hs & G1 & G2)].
      * left. split; [exact E|].
        intros x u [<-|Hx] Hu; [congruence | eauto].
      * right. exists (a :: l1), m, l2, s. subst l.
        repeat split; try assumption.
        intros x u [<-|Hx] Hu; [congruence | eauto].
    + destruct (Z_lt_le_dec t bs) as [Hlt|Hge].
      * rewrite (pick_step_lt _ _ _ _ _ Ea Hlt).
        right.
        destruct (IH a t) as [[E G] | (l1 & m & l2 & s & El & E & Em & Hs & G1 & G2)].
        -- exists [], a, l, t. repeat split; try assumption.
           intros x u [].
        -- exists (a :: l1), m, l2, s. subst l.
           repeat split; try assumption; try lia.
           intros x u [<-|Hx] Hu; [|eauto].
           rewrite Ea in Hu. injection Hu as <-. exact Hs.
      * rewrite (pick_step_ge _ _ _ _ _ Ea Hge).
        destruct (IH b bs) as [[E G] | (l1 & m & l2 & s & El & E & Em & Hs & G1 & G2)].
        -- left. split; [exact E|].
           intros x u [<-|Hx] Hu; [|eauto].
           rewrite Ea in Hu. injection Hu as <-. exact Hge.
        -- right. exists (a :: l1), m, l2, s. subst l.
           repeat split; try assumption.
           intros x u [<-|Hx] Hu; [|eauto].
           rewrite Ea in Hu. injection Hu as <-. lia.
Qed.

(** The same from the start of the loop, on a list with head [h]. *)
Lemma pickBestStream_cons (r : Z) (h : mso) (l : list mso) :
  (pickBestStream (Some (h :: l)) r = Some h
   /\ all_ge r (held_score r h) l)
  \/ (exists l1 m l2 s,
         l = l1 ++ m :: l2
         /\ pickBestStream (Some (h :: l)) r = Some m
         /\ score r m = Js.Num s /\ s < held_score r h
         /\ all_gt r s l1 /\ all_ge r s l2).
Proof.
  unfold pickBestStream. rewrite pick_loop_cons, pick_step_init.
  destruct (pick_loop_held r l h (held_score r h))
    as [[E G] | (l1 & m & l2 & s & El & E & Em & Hs & G1 & G2)].
  - left. rewrite E. split; [reflexivity | exact G].
  - right. exists l1, m, l2, s. rewrite E. repeat split; assumption.
Qed.

(** Once a candidate is held, [bestScore] is a number. *)
Lemma pick_loop_score_number (r : Z) (l : list mso) :
  l <> [] -> exists b z, pick_loop r l pick_init = (Some b, Js.Num z).
Proof.
  destruct l as [|h l]; [congruence | intros _].
  rewrite pick_loop_cons, pick_step_init.
  destruct (pick_loop_held r l h (held_score r h))
    as [[E _] | (l1 & m & l2 & s & _ & E & _)]; rewrite E; eauto.
Qed.

Lemma pickBestStream_nonempty (r : Z) (l : list mso) :
  l <> [] -> pickBestStream (Some l) r <> None.
Proof.
  intros H. unfold pickBestStream.
  destruct (pick_loop_score_number r l H) as (b & z & E).
  rewrite E. discriminate.
Qed.

(** ** Searching a list *)

Section Find.

Context {A : Type} (p : A -> bool).

Lemma find_absent (l : list A) :
  (forall x, In x l -> p x = false) -> find p l = None.
Proof.
  induction l as [|a l IH]; intros H; simpl; [reflexivity|].
  rewrite (H a (or_introl eq_refl)). apply IH.
  intros x Hx. apply H. right. exact Hx.
Qed.

Lemma find_first (l1 l2 : list A) (m : A) :
  p m = true -> (forall x, In x l1 -> p x = false) ->
  find p (l1 ++ m :: l2) = Some m.
Proof.
  intros Hm. induction l1 as [|a l1 IH]; intros H; simpl.
  - rewrite Hm. reflexivity.
  - rewrite (H a (or_introl eq_refl)). apply IH.
    intros x Hx. apply H. right. exact Hx.
Qed.

Lemma find_split (l : list A) (m : A) :
  find p l = Some m ->
  exists l1 l2,
    l = l1 ++ m :: l2 /\ p m = true /\ (forall x, In x l1 -> p x = false).
Proof.
  induction l as [|a l IH]; simpl; [discriminate|].
  destruct (p a) eqn:Ea.
  - intros [= ->]. exists [], l. repeat split; [exact Ea | intros x []].
  - intros H. destruct (IH H) as (l1 & l2 & -> & Hm & Hl1).
    exists (a :: l1), l2. repeat split; [exact Hm|].
    intros x [<-|Hx]; [exact Ea | apply Hl1, Hx].
Qed.

Lemma find_only (l : list A) (m : A) :
  In m l -> p m = true -> (forall x, In x l -> p x = true -> x = m) ->
  find p l = Some m.
Proof.
  induction l as [|a l IH]; intros Hin Hm Hu; [destruct Hin|].
  simpl. destruct (p a) eqn:Ea.
  - f_equal. apply Hu; [left; reflexivity | exact Ea].
  - destruct Hin as [->|Hin]; [congruence|].
    apply IH; [exact Hin | exact Hm |].
    intros x Hx. apply Hu. right. exact Hx.
Qed.

Lemma filter_subsequence (l : list A) : subsequence (filter p l) l.
Proof.
  induction l as [|a l IH]; simpl; [constructor|].
  destruct (p a); constructor; exact IH.
Qed.

End Find.

Lemma filter_ext_in_list {A : Type} (p q : A -> bool) (l : list A) :
  (forall x, In x l -> p x = q x) -> filter p l = filter q l.
Proof.
  induction l as [|a l IH]; intros H; simpl; [reflexivity|].
  rewrite (H a (or_introl eq_refl)), IH; [reflexivity|].
  intros x Hx. apply H. right. exact Hx.
Qed.

(** ** The role resolver *)

Lemma getMediaStream_default_path (st : StorageSettings) (key : StreamKey)
  (msos : option (list mso)) :
  Js.strict_eq (values st key) (Some "Default") = true
  \/ find_named (values st key) msos = None ->
  getMediaStream st key msos =
  mkResolved (title (streamTypes key)) true
             (getDefaultMediaStream st (streamTypes key) msos).
Proof.
  unfold getMediaStream. intros [H|H]; rewrite H; [reflexivity|].
  rewrite orb_true_r. reflexivity.
Qed.

Lemma getMediaStream_lookup_path (st : StorageSettings) (key : StreamKey)
  (msos : option (list mso)) (m : mso) :
  Js.strict_eq (values st key) (Some "Default") = false ->
  find_named (values st key) msos = Some m ->
  getMediaStream st key msos =
  mkResolved (title (streamTypes key)) false (Some m).
Proof.
  unfold getMediaStream. intros H1 H2. rewrite H1, H2. reflexivity.
Qed.

(** * The claims *)

(** ** C1 *)

(** C1, as stated, fails: on the streams 1080p and 4k, role
    [defaultStream], persisted value ["Default"] and [enabledStreams] never
    set, [getMediaStream] does not return the stream named 4k. *)
Lemma getMediaStream_scenario_not_4k :
  ~ (exists m,
       stream (getMediaStream Samples.unset defaultStream
                 (Some [Samples.s1080p; Samples.s4k])) = Some m
       /\ name m = Some "4k"
       /\ isDefault (getMediaStream Samples.unset defaultStream
                       (Some [Samples.s1080p; Samples.s4k])) = true).
Proof.
  intros (m & Hm & Hn & _). vm_compute in Hm.
  injection Hm as <-. discriminate Hn.
Qed.

(** C1, amended: in that scenario the enabled streams default to the first
    stream that is neither cloud nor raw video, 1080p; [defaultStream]
    prefers prebuffered streams, so the pool is that one stream and
    [getMediaStream] returns the stream named 1080p with [isDefault] true. *)
Theorem getMediaStream_scenario_1080p (st : StorageSettings) :
  values st defaultStream = Some "Default" ->
  hasValue_enabledStreams st = false ->
  getDefaultPrebufferedStreams (Some [Samples.s1080p; Samples.s4k])
  = Some [Samples.s1080p]
  /\ getMediaStream st defaultStream (Some [Samples.s1080p; Samples.s4k])
     = mkResolved "Local Stream" true (Some Samples.s1080p).
Proof.
  intros Hv Hh. split; [reflexivity|].
  rewrite getMediaStream_default_path
    by (left; rewrite Hv; reflexivity).
  unfold getDefaultMediaStream, prebufferPreferenceStreams,
    getPrebufferedStreams.
  rewrite Hh. reflexivity.
Qed.

Lemma getMediaStream_scenario_1080p_witness :
  getMediaStream Samples.unset defaultStream
    (Some [Samples.s1080p; Samples.s4k])
  = mkResolved "Local Stream" true (Some Samples.s1080p).
Proof.
  apply (getMediaStream_scenario_1080p Samples.unset); reflexivity.
Defined.

(** ** C2 *)

(** C2, as stated, fails: a first candidate without dimensions becomes
    [best], the comparison of the next candidate's score with [bestScore]
    succeeds, and the later candidate replaces it. *)
Lemma pickBestStream_unknown_not_kept :
  hasResolution Samples.sUnknown = false
  /\ fst (pick_step (3840 * 2160) pick_init Samples.sUnknown)
     = Some Samples.sUnknown
  /\ Js.lt (score (3840 * 2160) Samples.s1080p)
           (snd (pick_step (3840 * 2160) pick_init Samples.sUnknown)) = true
  /\ pickBestStream (Some [Samples.sUnknown; Samples.s1080p]) (3840 * 2160)
     = Some Samples.s1080p
  /\ Samples.s1080p <> Samples.sUnknown.
Proof. repeat split. discriminate. Qed.

(** C2, amended: [bestScore] is never left "not a number".  On a target
    and candidates in the range of exact arithmetic, when a candidate
    without dimensions becomes [best], [bestScore] is set to
    [Number.MAX_SAFE_INTEGER]; the comparison with the score of a later
    candidate that has dimensions and scores below that bound succeeds,
    and the function returns a candidate that has dimensions. *)
Theorem pickBestStream_unknown_replaced (r : Z) (d : mso) (rest : list mso)
  (m : mso) (t : Z) :
  exact_scores r (d :: rest) = true ->
  hasResolution d = false ->
  In m rest -> score r m = Js.Num t -> t < Js.MAX_SAFE_INTEGER ->
  pick_step r pick_init d = (Some d, Js.Num Js.MAX_SAFE_INTEGER)
  /\ Js.lt (score r m) (Js.Num Js.MAX_SAFE_INTEGER) = true
  /\ exists b s,
       pickBestStream (Some (d :: rest)) r = Some b
       /\ hasResolution b = true /\ score r b = Js.Num s /\ s <= t.
Proof.
  intros _ Hd Hin Hm Ht.
  apply score_NaN with (r := r) in Hd.
  split; [|split].
  - rewrite pick_step_init, (held_score_NaN _ _ Hd). reflexivity.
  - rewrite Hm. simpl. apply Z.ltb_lt. exact Ht.
  - destruct (pickBestStream_cons r d rest)
      as [[_ G] | (l1 & b & l2 & s & El & E & Eb & Hs & G1 & G2)].
    + rewrite (held_score_NaN _ _ Hd) in G.
      specialize (G m t Hin Hm). lia.
    + exists b, s. repeat split; try assumption.
      * apply (score_Num r). eauto.
      * subst rest. apply in_app_or in Hin.
        destruct Hin as [Hin|[<-|Hin]].
        -- specialize (G1 m t Hin Hm). lia.
        -- rewrite Eb in Hm. injection Hm as <-. lia.
        -- exact (G2 m t Hin Hm).
Qed.

Lemma pickBestStream_unknown_replaced_witness :
  pick_step (3840 * 2160) pick_init Samples.sUnknown
  = (Some Samples.sUnknown, Js.Num Js.MAX_SAFE_INTEGER)
  /\ Js.lt (score (3840 * 2160) Samples.s4k) (Js.Num Js.MAX_SAFE_INTEGER)
     = true
  /\ exists b s,
       pickBestStream
         (Some [Samples.sUnknown; Samples.s1080p; Samples.s4k]) (3840 * 2160)
       = Some b
       /\ hasResolution b = true /\ score (3840 * 2160) b = Js.Num s
       /\ s <= 0.
Proof.
  apply (pickBestStream_unknown_replaced (3840 * 2160) Samples.sUnknown
           [Samples.s1080p; Samples.s4k] Samples.s4k 0).
  - reflexivity.
  - reflexivity.
  - right. left. reflexivity.
  - reflexivity.
  - reflexivity.
Defined.

(** ** C3 *)

(** C3, as stated, fails: the score given to a first candidate without
    dimensions is [Number.MAX_SAFE_INTEGER], not the worst possible one.  A
    later candidate of 2^27 by 2^27 pixels is 2^54 - 8294400 away from the
    target (both numbers are doubles, so the source computes them exactly),
    which is more, and the candidate without dimensions is returned
    although one with known resolution exists. *)
Lemma pickBestStream_unknown_beats_known :
  hasResolution Samples.sUnknown = false
  /\ hasResolution Samples.sHuge = true
  /\ score (3840 * 2160) Samples.sHuge = Js.Num 18014398501187584
  /\ pickBestStream (Some [Samples.sUnknown; Samples.sHuge]) (3840 * 2160)
     = Some Samples.sUnknown.
Proof. repeat split. Qed.

(** C3, amended: on a target and candidates in the range of exact
    arithmetic, a candidate without dimensions that becomes [best] is
    scored [Number.MAX_SAFE_INTEGER] and one met later never replaces the
    held candidate; so whenever some candidate has known resolution and a
    distance below [Number.MAX_SAFE_INTEGER], the function returns a
    candidate of the list with known resolution, at least as close as that
    one; and when no candidate has known resolution the first candidate is
    returned. *)
Theorem pickBestStream_known_preferred (r : Z) (l : list mso) :
  exact_scores r l = true ->
  (forall m, hasResolution m = false ->
     pick_step r pick_init m = (Some m, Js.Num Js.MAX_SAFE_INTEGER)
     /\ forall b bs, pick_step r (Some b, bs) m = (Some b, bs))
  /\ (forall x t,
        In x l -> score r x = Js.Num t -> t < Js.MAX_SAFE_INTEGER ->
        exists b s,
          pickBestStream (Some l) r = Some b
          /\ In b l /\ hasResolution b = true
          /\ score r b = Js.Num s /\ s <= t)
  /\ (forall h tl,
        l = h :: tl -> (forall x, In x l -> hasResolution x = false) ->
        pickBestStream (Some l) r = Some h).
Proof.
  intros _. split; [|split].
  - intros m Hm. apply score_NaN with (r := r) in Hm. split.
    + rewrite pick_step_init, (held_score_NaN _ _ Hm). reflexivity.
    + intros b bs. apply pick_step_NaN, Hm.
  - intros x t Hin Hx Ht.
    destruct l as [|h tl]; [destruct Hin|].
    destruct (pickBestStream_cons r h tl)
      as [[E G] | (l1 & b & l2 & s & El & E & Eb & Hs & G1 & G2)].
    + assert (Hh : exists u, score r h = Js.Num u /\ u <= t).
      { destruct Hin as [->|Hin].
        - exists t. split; [exact Hx | lia].
        - specialize (G x t Hin Hx). unfold held_score in G.
          destruct (score r h) as [|u]; [lia|].
          exists u. split; [reflexivity | exact G]. }
      destruct Hh as (u & Hu & Hle).
      exists h, u. repeat split; try assumption.
      * left. reflexivity.
      * apply (score_Num r). eauto.
    + exists b, s. repeat split; try assumption.
      * right. subst tl. apply in_or_app. right. left. reflexivity.
      * apply (score_Num r). eauto.
      * destruct Hin as [->|Hin].
        -- rewrite (held_score_Num _ _ _ Hx) in Hs. lia.
        -- subst tl. apply in_app_or in Hin.
           destruct Hin as [Hin|[<-|Hin]].
           ++ specialize (G1 x t Hin Hx). lia.
           ++ rewrite Eb in Hx. injection Hx as <-. lia.
           ++ exact (G2 x t Hin Hx).
  - intros h tl -> Hall.
    destruct (pickBestStream_cons r h tl)
      as [[E _] | (l1 & b & l2 & s & El & E & Eb & _)]; [exact E|].
    assert (Hb : hasResolution b = false).
    { apply Hall. right. subst tl. apply in_or_app. right. left. reflexivity. }
    apply score_NaN with (r := r) in Hb. congruence.
Qed.

Lemma pickBestStream_known_preferred_witness :
  (exists b s,
     pickBestStream (Some [Samples.sUnknown; Samples.s1080p]) (1280 * 720)
     = Some b
     /\ In b [Samples.sUnknown; Samples.s1080p]
     /\ hasResolution b = true
     /\ score (1280 * 720) b = Js.Num s /\ s <= 1152000)
  /\ pickBestStream (Some [Samples.local1; Samples.sUnknown]) (1280 * 720)
     = Some Samples.local1.
Proof.
  split.
  - apply (proj1 (proj2 (pickBestStream_known_preferred (1280 * 720)
                           [Samples.sUnknown; Samples.s1080p] eq_refl))
             Samples.s1080p 1152000).
    + right. left. reflexivity.
    + reflexivity.
    + reflexivity.
  - apply (proj2 (proj2 (pickBestStream_known_preferred (1280 * 720)
                           [Samples.local1; Samples.sUnknown] eq_refl))
             Samples.local1 [Samples.sUnknown] eq_refl).
    intros x [<-|[<-|[]]]; reflexivity.
Defined.

(** ** C7 *)

(** C7: ties go to the first candidate.  On a target and candidates in
    the range of exact arithmetic: of two candidates at the same distance
    from the target the first is returned; and in any list, when
    [pickBestStream] returns a candidate with a numeric score, that
    candidate sits at a position before which every scored candidate is
    strictly farther from the target, and after which none is strictly
    closer: of several candidates at the same distance it is the first
    one. *)
Theorem pickBestStream_first_wins (r : Z) :
  (forall a b,
     exact_scores r [a; b] = true ->
     score r a = score r b -> pickBestStream (Some [a; b]) r = Some a)
  /\ (forall l b s,
        exact_scores r l = true ->
        pickBestStream (Some l) r = Some b ->
        score r b = Js.Num s ->
        exists l1 l2, l = l1 ++ b :: l2 /\ all_gt r s l1 /\ all_ge r s l2).
Proof.
  split.
  - intros a b _ E. unfold pickBestStream.
    rewrite !pick_loop_cons, pick_step_init.
    destruct (score r b) as [|t] eqn:Eb.
    + rewrite (pick_step_NaN _ _ _ _ Eb). reflexivity.
    + rewrite (held_score_Num _ _ _ E).
      rewrite (pick_step_ge _ _ _ _ _ Eb (Z.le_refl t)). reflexivity.
  - intros l b s _ Hb Hs.
    destruct l as [|h tl]; [discriminate|].
    destruct (pickBestStream_cons r h tl)
      as [[E G] | (l1 & m & l2 & u & El & E & Em & Hu & G1 & G2)].
    + rewrite E in Hb. injection Hb as ->.
      rewrite (held_score_Num _ _ _ Hs) in G.
      exists [], tl. repeat split; [intros x t [] | exact G].
    + rewrite E in Hb. injection Hb as ->.
      rewrite Em in Hs. injection Hs as ->.
      exists (h :: l1), l2. subst tl. repeat split; [|exact G2].
      intros x t [<-|Hx] Hx'; [|eauto].
      rewrite (held_score_Num _ _ _ Hx') in Hu. exact Hu.
Qed.

Lemma pickBestStream_first_wins_witness :
  pickBestStream (Some [Samples.landscape; Samples.portrait]) (1280 * 720)
  = Some Samples.landscape
  /\ exists l1 l2,
       [Samples.s4k; Samples.landscape; Samples.portrait]
       = l1 ++ Samples.landscape :: l2
       /\ all_gt (1280 * 720) 1152000 l1 /\ all_ge (1280 * 720) 1152000 l2.
Proof.
  split.
  - apply (proj1 (pickBestStream_first_wins (1280 * 720))
             Samples.landscape Samples.portrait); reflexivity.
  - apply (proj2 (pickBestStream_first_wins (1280 * 720))
             [Samples.s4k; Samples.landscape; Samples.portrait]
             Samples.landscape 1152000); reflexivity.
Defined.

(** ** C4 *)

(** C4: when the persisted value of the role is not ["Default"] and is the
    name of a stream [s] of the list, no other stream of the list carrying
    that name, [getMediaStream] returns [s] with [isDefault] false. *)
Theorem getMediaStream_explicit (st : StorageSettings) (key : StreamKey)
  (l : list mso) (s : mso) :
  values st key <> Some "Default" ->
  In s l -> name s = values st key ->
  (forall x, In x l -> name x = values st key -> x = s) ->
  getMediaStream st key (Some l)
  = mkResolved (title (streamTypes key)) false (Some s).
Proof.
  intros Hd Hin Hn Hu.
  apply getMediaStream_lookup_path.
  - apply strict_eq_false, Hd.
  - simpl. apply find_only; [exact Hin | apply strict_eq_true, Hn |].
    intros x Hx Ex. apply Hu; [exact Hx | apply strict_eq_true, Ex].
Qed.

Lemma getMediaStream_explicit_witness :
  getMediaStream (Samples.chose "4k") remoteStream
    (Some [Samples.s1080p; Samples.s4k])
  = mkResolved "Remote (Medium Resolution) Stream" false (Some Samples.s4k).
Proof.
  apply (getMediaStream_explicit (Samples.chose "4k") remoteStream
           [Samples.s1080p; Samples.s4k] Samples.s4k).
  - discriminate.
  - right. left. reflexivity.
  - reflexivity.
  - intros x [<-|[<-|[]]] E; [discriminate E | reflexivity].
Defined.

(** ** C5 *)

(** C5: when no stream of the list carries the persisted value as its
    name, [getMediaStream] returns, with [isDefault] true, the stream
    computed by [getDefaultMediaStream]; the function is total, so nothing
    is raised. *)
Theorem getMediaStream_stale (st : StorageSettings) (key : StreamKey)
  (l : list mso) :
  (forall x, In x l -> name x <> values st key) ->
  getMediaStream st key (Some l)
  = mkResolved (title (streamTypes key)) true
               (getDefaultMediaStream st (streamTypes key) (Some l)).
Proof.
  intros H. apply getMediaStream_default_path. right.
  simpl. apply find_absent.
  intros x Hx. apply strict_eq_false, H, Hx.
Qed.

Lemma getMediaStream_stale_witness :
  getMediaStream (Samples.chose "720p") remoteStream
    (Some [Samples.s4k; Samples.s1080p])
  = mkResolved "Remote (Medium Resolution) Stream" true (Some Samples.s1080p).
Proof.
  apply (getMediaStream_stale (Samples.chose "720p") remoteStream
           [Samples.s4k; Samples.s1080p]).
  intros x [<-|[<-|[]]]; discriminate.
Defined.

(** ** C10 *)

(** C10: when the persisted value is ["Default"], a descriptor named
    ["Default"] is found by the name lookup, yet [getMediaStream] sets
    [isDefault] and returns the stream computed by
    [getDefaultMediaStream]. *)
Theorem getMediaStream_sentinel (st : StorageSettings) (key : StreamKey)
  (l : list mso) (d : mso) :
  values st key = Some "Default" ->
  In d l -> name d = Some "Default" ->
  find_named (values st key) (Some l) <> None
  /\ getMediaStream st key (Some l)
     = mkResolved (title (streamTypes key)) true
                  (getDefaultMediaStream st (streamTypes key) (Some l)).
Proof.
  intros Hv Hin Hn. split.
  - simpl. intros Hnone.
    pose proof (find_none _ _ Hnone d Hin) as Hf.
    apply strict_eq_false in Hf. congruence.
  - apply getMediaStream_default_path. left. rewrite Hv. reflexivity.
Qed.

Lemma getMediaStream_sentinel_witness :
  find_named (values Samples.unset remoteStream)
    (Some [Samples.sDefault; Samples.s1080p]) <> None
  /\ getMediaStream Samples.unset remoteStream
       (Some [Samples.sDefault; Samples.s1080p])
     = mkResolved "Remote (Medium Resolution) Stream" true
         (getDefaultMediaStream Samples.unset (streamTypes remoteStream)
            (Some [Samples.sDefault; Samples.s1080p])).
Proof.
  apply (getMediaStream_sentinel Samples.unset remoteStream
           [Samples.sDefault; Samples.s1080p] Samples.sDefault).
  - reflexivity.
  - left. reflexivity.
  - reflexivity.
Defined.

(** ** C8 *)

(** C8: on a defined list, [getDefaultPrebufferedStreams] returns a list
    all of whose streams are neither cloud nor raw video: the one-element
    list of the first such stream of the input when there is one, the empty
    list (not [undefined]) when there is none. *)
Theorem getDefaultPrebufferedStreams_spec (l : list mso) :
  exists res,
    getDefaultPrebufferedStreams (Some l) = Some res
    /\ Forall eligible res
    /\ ((exists l1 m l2,
           l = l1 ++ m :: l2 /\ eligible m
           /\ Forall (fun x => ~ eligible x) l1 /\ res = [m])
        \/ (Forall (fun x => ~ eligible x) l /\ res = [])).
Proof.
  unfold getDefaultPrebufferedStreams.
  destruct (find nonCloud l) as [m|] eqn:E.
  - destruct (find_split _ _ _ E) as (l1 & l2 & El & Hm & Hl1).
    apply nonCloud_true in Hm.
    exists [m]. split; [reflexivity|]. split.
    + constructor; [exact Hm | constructor].
    + left. exists l1, m, l2. repeat split; try assumption; try apply Hm.
      apply Forall_forall. intros x Hx. apply nonCloud_false, Hl1, Hx.
  - exists []. split; [reflexivity|]. split; [constructor|].
    right. split; [|reflexivity].
    apply Forall_forall. intros x Hx.
    apply nonCloud_false. exact (find_none _ _ E x Hx).
Qed.

(** ** C9 *)

(** C9: [getPrebufferedStreams] returns [undefined] on an undefined list;
    without an explicit [enabledStreams] value it returns what
    [getDefaultPrebufferedStreams] returns; with one it returns the streams
    of the list whose name is among the persisted names, in the order of
    the list, and the persisted names carried by no stream of the list
    play no part in the result. *)
Theorem getPrebufferedStreams_spec (st : StorageSettings) (l : list mso) :
  getPrebufferedStreams st None = None
  /\ (hasValue_enabledStreams st = false ->
      getPrebufferedStreams st (Some l)
      = getDefaultPrebufferedStreams (Some l))
  /\ (hasValue_enabledStreams st = true ->
      exists res,
        getPrebufferedStreams st (Some l) = Some res
        /\ subsequence res l
        /\ (forall x,
              In x res <->
              In x l
              /\ exists n, name x = Some n /\ In n (values_enabledStreams st))
        /\ getPrebufferedStreams
             (with_enabledStreams st
                (current_names l (values_enabledStreams st)))
             (Some l)
           = Some res).
Proof.
  split; [reflexivity | split].
  - intros H. unfold getPrebufferedStreams. rewrite H. reflexivity.
  - intros H. unfold getPrebufferedStreams. simpl. rewrite H. simpl.
    eexists. split; [reflexivity|]. split; [apply filter_subsequence|].
    split.
    + intros x. rewrite filter_In, includes_true. reflexivity.
    + f_equal. apply filter_ext_in_list. intros x Hx.
      apply eq_true_iff_eq. rewrite !includes_true.
      split; intros (n & En & Hn); exists n; (split; [exact En|]).
      * unfold current_names in Hn. apply filter_In in Hn. apply Hn.
      * unfold current_names. apply filter_In. split; [exact Hn|].
        apply existsb_exists. exists x.
        split; [exact Hx | apply strict_eq_true, En].
Qed.

Lemma getPrebufferedStreams_spec_witness :
  getPrebufferedStreams Samples.unset
    (Some [Samples.cloud1; Samples.local1])
  = Some [Samples.local1]
  /\ exists res,
       getPrebufferedStreams (Samples.enabled ["4k"; "gone"; "1080p"])
         (Some [Samples.s1080p; Samples.sUnknown; Samples.s4k])
       = Some res
       /\ res = [Samples.s1080p; Samples.s4k]
       /\ subsequence res [Samples.s1080p; Samples.sUnknown; Samples.s4k].
Proof.
  split.
  - exact (proj1 (proj2 (getPrebufferedStreams_spec Samples.unset
                           [Samples.cloud1; Samples.local1])) eq_refl).
  - destruct (proj2 (proj2 (getPrebufferedStreams_spec
                              (Samples.enabled ["4k"; "gone"; "1080p"])
                              [Samples.s1080p; Samples.sUnknown; Samples.s4k]))
                eq_refl) as (res & E & S & _).
    exists res. split; [exact E|]. split; [|exact S].
    vm_compute in E. injection E as <-. reflexivity.
Defined.

(** ** C6 *)

(** C6: the candidate pool of [getDefaultMediaStream] is the enabled
    streams when the role prefers prebuffered streams and that list is not
    empty, and the full list in every other case; on a stream list that is
    not empty the result is never [undefined]. *)
Theorem getDefaultMediaStream_pool (st : StorageSettings)
  (v : StreamStorageSetting) (msos : option (list mso)) :
  (forall e,
     prefersPrebuffer v = true ->
     getPrebufferedStreams st msos = Some e -> e <> [] ->
     prebufferPreferenceStreams st v msos = Some e
     /\ getDefaultMediaStream st v msos
        = pickBestStream (Some e) (preferredResolution v))
  /\ (prefersPrebuffer v = false
      \/ getPrebufferedStreams st msos = None
      \/ getPrebufferedStreams st msos = Some [] ->
      prebufferPreferenceStreams st v msos = msos
      /\ getDefaultMediaStream st v msos
         = pickBestStream msos (preferredResolution v))
  /\ (forall l,
        msos = Some l -> l <> [] -> getDefaultMediaStream st v msos <> None).
Proof.
  assert (P1 : forall e,
             prefersPrebuffer v = true ->
             getPrebufferedStreams st msos = Some e -> e <> [] ->
             prebufferPreferenceStreams st v msos = Some e).
  { intros e Hp He Hne. unfold prebufferPreferenceStreams.
    rewrite Hp, He. destruct e as [|x e]; [congruence | reflexivity]. }
  assert (P2 : prefersPrebuffer v = false
               \/ getPrebufferedStreams st msos = None
               \/ getPrebufferedStreams st msos = Some [] ->
               prebufferPreferenceStreams st v msos = msos).
  { unfold prebufferPreferenceStreams.
    intros [H|[H|H]]; rewrite H; try reflexivity;
      destruct (prefersPrebuffer v); reflexivity. }
  split; [|split].
  - intros e Hp He Hne. split; [exact (P1 e Hp He Hne)|].
    unfold getDefaultMediaStream. rewrite (P1 e Hp He Hne). reflexivity.
  - intros H. split; [exact (P2 H)|].
    unfold getDefaultMediaStream. rewrite (P2 H). reflexivity.
  - intros l -> Hne. unfold getDefaultMediaStream.
    destruct (prefersPrebuffer v) eqn:Hp.
    + destruct (getPrebufferedStreams st (Some l)) as [[|x e]|] eqn:He.
      * rewrite P2 by auto. apply pickBestStream_nonempty, Hne.
      * rewrite (P1 (x :: e)) by (auto; discriminate).
        apply pickBestStream_nonempty. discriminate.
      * rewrite P2 by auto. apply pickBestStream_nonempty, Hne.
    + rewrite P2 by auto. apply pickBestStream_nonempty, Hne.
Qed.

Lemma getDefaultMediaStream_pool_witness :
  getDefaultMediaStream (Samples.enabled ["1080p"])
    (streamTypes defaultStream) (Some [Samples.s1080p; Samples.s4k])
  = pickBestStream (Some [Samples.s1080p]) (3840 * 2160)
  /\ getDefaultMediaStream (Samples.enabled [])
       (streamTypes defaultStream) (Some [Samples.s1080p; Samples.s4k])
     = pickBestStream (Some [Samples.s1080p; Samples.s4k]) (3840 * 2160)
  /\ getDefaultMediaStream (Samples.enabled [])
       (streamTypes defaultStream) (Some [Samples.s1080p; Samples.s4k])
     <> None.
Proof.
  split; [|split].
  - apply (proj1 (getDefaultMediaStream_pool (Samples.enabled ["1080p"])
                    (streamTypes defaultStream)
                    (Some [Samples.s1080p; Samples.s4k]))
             [Samples.s1080p]); [reflexivity | reflexivity | discriminate].
  - apply (proj1 (proj2 (getDefaultMediaStream_pool (Samples.enabled [])
                           (streamTypes defaultStream)
                           (Some [Samples.s1080p; Samples.s4k])))).
    right. right. reflexivity.
  - apply (proj2 (proj2 (getDefaultMediaStream_pool (Samples.enabled [])
                           (streamTypes defaultStream)
                           (Some [Samples.s1080p; Samples.s4k])))
             [Samples.s1080p; Samples.s4k] eq_refl).
    discriminate.
Defined.

(** * Further properties of the code *)

(** ** The range of exact arithmetic *)

(** In the range of exact arithmetic a numeric score is itself a safe
    integer: it never exceeds the score [Number.MAX_SAFE_INTEGER] given to
    a first candidate without dimensions. *)
Lemma exact_score_safe (r : Z) (m : mso) (t : Z) :
  exact_score r m = true -> score r m = Js.Num t ->
  0 <= t <= Js.MAX_SAFE_INTEGER.
Proof.
  unfold exact_score, score, isSafeInteger.
  destruct (video_width m) as [w|], (video_height m) as [h|]; simpl;
    try discriminate.
  intros H [= <-].
  rewrite !andb_true_iff, !Z.leb_le in H.
  unfold Js.MAX_SAFE_INTEGER in *. lia.
Qed.

Lemma exact_scores_In (r : Z) (l : list mso) (x : mso) :
  exact_scores r l = true -> In x l -> exact_score r x = true.
Proof.
  unfold exact_scores. intros H Hx.
  apply andb_prop in H. destruct H as [_ H].
  rewrite forallb_forall in H. apply H, Hx.
Qed.

(** ** More on the loop of [pickBestStream] *)

Lemma pick_step_held (r : Z) (b : mso) (bs : Js.number) (a : mso) :
  exists b' bs', pick_step r (Some b, bs) a = (Some b', bs').
Proof.
  unfold pick_step. simpl.
  destruct (Js.lt (score r a) bs); eauto.
Qed.

Lemma pick_loop_filter (r : Z) (l : list mso) :
  forall (b : mso) (bs : Js.number),
    pick_loop r (filter hasResolution l) (Some b, bs)
    = pick_loop r l (Some b, bs).
Proof.
  induction l as [|a l IH]; intros b bs; [reflexivity|].
  simpl filter. rewrite pick_loop_cons.
  destruct (hasResolution a) eqn:Ha.
  - rewrite pick_loop_cons.
    destruct (pick_step_held r b bs a) as (b' & bs' & E).
    rewrite E. apply IH.
  - apply score_NaN with (r := r) in Ha.
    rewrite (pick_step_NaN _ _ _ _ Ha). apply IH.
Qed.

Lemma pickBestStream_in (r : Z) (l : list mso) (b : mso) :
  pickBestStream (Some l) r = Some b -> In b l.
Proof.
  destruct l as [|h tl]; [discriminate|].
  destruct (pickBestStream_cons r h tl)
    as [[E _] | (l1 & m & l2 & s & El & E & _)];
    rewrite E; intros [= <-].
  - left. reflexivity.
  - right. subst tl. apply in_or_app. right. left. reflexivity.
Qed.

Lemma pickBestStream_least (r : Z) (l : list mso) (b : mso) (s : Z) :
  pickBestStream (Some l) r = Some b -> score r b = Js.Num s ->
  all_ge r s l.
Proof.
  destruct l as [|h tl]; [discriminate|].
  destruct (pickBestStream_cons r h tl)
    as [[E G] | (l1 & m & l2 & u & El & E & Em & Hu & G1 & G2)];
    rewrite E; intros [= <-] Hs.
  - rewrite (held_score_Num _ _ _ Hs) in G.
    intros x t [<-|Hx] Hx'; [|eauto].
    rewrite Hs in Hx'. injection Hx' as <-. lia.
  - rewrite Em in Hs. injection Hs as <-.
    intros x t [<-|Hx] Hx'.
    + rewrite (held_score_Num _ _ _ Hx') in Hu. lia.
    + subst tl. apply in_app_or in Hx. destruct Hx as [Hx|[<-|Hx]].
      * specialize (G1 x t Hx Hx'). lia.
      * rewrite Em in Hx'. injection Hx' as <-. lia.
      * exact (G2 x t Hx Hx').
Qed.

(** ** Subsequences *)

Lemma subsequence_nil {A : Type} (l : list A) : subsequence [] l.
Proof. induction l; constructor; assumption. Qed.

Lemma subsequence_In {A : Type} (l1 l2 : list A) :
  subsequence l1 l2 -> forall x, In x l1 -> In x l2.
Proof.
  induction 1 as [|y l1 l2 _ IH|y l1 l2 _ IH]; intros x Hx.
  - destruct Hx.
  - right. apply IH, Hx.
  - destruct Hx as [<-|Hx]; [left; reflexivity | right; apply IH, Hx].
Qed.

Lemma subsequence_single {A : Type} (l1 l2 : list A) (m : A) :
  subsequence [m] (l1 ++ m :: l2).
Proof.
  induction l1 as [|a l1 IH]; simpl.
  - apply subseq_keep, subsequence_nil.
  - apply subseq_skip, IH.
Qed.

Lemma getPrebufferedStreams_sub (st : StorageSettings) (l : list mso) :
  exists res,
    getPrebufferedStreams st (Some l) = Some res /\ subsequence res l.
Proof.
  unfold getPrebufferedStreams, getDefaultPrebufferedStreams.
  destruct (hasValue_enabledStreams st); simpl.
  - eexists. split; [reflexivity | apply filter_subsequence].
  - destruct (find nonCloud l) as [m|] eqn:E.
    + destruct (find_split _ _ _ E) as (l1 & l2 & -> & _).
      eexists. split; [reflexivity | apply subsequence_single].
    + eexists. split; [reflexivity | apply subsequence_nil].
Qed.

(** The candidate pool on a defined list: streams of the list, and some
    whenever the list has some. *)
Lemma prebufferPreferenceStreams_pool (st : StorageSettings)
  (v : StreamStorageSetting) (l : list mso) :
  exists p,
    prebufferPreferenceStreams st v (Some l) = Some p
    /\ (forall x, In x p -> In x l)
    /\ (l <> [] -> p <> []).
Proof.
  unfold prebufferPreferenceStreams.
  destruct (getPrebufferedStreams_sub st l) as (res & E & S).
  rewrite E.
  destruct (prefersPrebuffer v); simpl.
  - destruct res as [|x res]; simpl.
    + exists l. repeat split; auto.
    + exists (x :: res). repeat split; [|discriminate].
      apply subsequence_In, S.
  - exists l. repeat split; auto.
Qed.

Lemma prebufferPreferenceStreams_undefined (st : StorageSettings)
  (v : StreamStorageSetting) :
  prebufferPreferenceStreams st v None = None.
Proof.
  unfold prebufferPreferenceStreams. simpl.
  rewrite andb_false_r. reflexivity.
Qed.

Lemma getDefaultMediaStream_in (st : StorageSettings)
  (v : StreamStorageSetting) (msos : option (list mso)) (b : mso) :
  getDefaultMediaStream st v msos = Some b ->
  exists l, msos = Some l /\ In b l.
Proof.
  unfold getDefaultMediaStream. destruct msos as [l|].
  - destruct (prebufferPreferenceStreams_pool st v l) as (p & E & Hin & _).
    rewrite E. intros H. exists l. split; [reflexivity|].
    apply Hin, (pickBestStream_in _ _ _ H).
  - rewrite prebufferPreferenceStreams_undefined. discriminate.
Qed.

Lemma getDefaultMediaStream_undefined_iff (st : StorageSettings)
  (v : StreamStorageSetting) (msos : option (list mso)) :
  getDefaultMediaStream st v msos = None <-> msos = None \/ msos = Some [].
Proof.
  unfold getDefaultMediaStream. destruct msos as [l|].
  - destruct (prebufferPreferenceStreams_pool st v l) as (p & E & _ & Hne).
    rewrite E. split.
    + intros H. right. destruct l as [|x l]; [reflexivity|].
      exfalso. apply (pickBestStream_nonempty (preferredResolution v) p);
        [apply Hne; discriminate | exact H].
    + intros [H|H]; [discriminate|]. injection H as ->.
      destruct p as [|x p]; [reflexivity|].
      destruct (prebufferPreferenceStreams_pool st v []) as (q & E' & Hin & _).
      rewrite E in E'. injection E' as <-.
      destruct (Hin x (or_introl eq_refl)).
  - rewrite prebufferPreferenceStreams_undefined.
    split; [left; reflexivity | reflexivity].
Qed.

Lemma pickBestStream_single (r : Z) (m : mso) :
  pickBestStream (Some [m]) r = Some m.
Proof.
  unfold pickBestStream. rewrite pick_loop_cons, pick_step_init. reflexivity.
Qed.

(** The two ways [getMediaStream] ends. *)
Lemma getMediaStream_cases (st : StorageSettings) (key : StreamKey)
  (msos : option (list mso)) :
  ((Js.strict_eq (values st key) (Some "Default") = true
    \/ find_named (values st key) msos = None)
   /\ getMediaStream st key msos
      = mkResolved (title (streamTypes key)) true
                   (getDefaultMediaStream st (streamTypes key) msos))
  \/ (exists m,
        Js.strict_eq (values st key) (Some "Default") = false
        /\ find_named (values st key) msos = Some m
        /\ getMediaStream st key msos
           = mkResolved (title (streamTypes key)) false (Some m)).
Proof.
  destruct (Js.strict_eq (values st key) (Some "Default")) eqn:Ed.
  - left. split; [left; reflexivity|].
    apply getMediaStream_default_path. left. exact Ed.
  - destruct (find_named (values st key) msos) as [m|] eqn:Ef.
    + right. exists m. repeat split.
      apply getMediaStream_lookup_path; assumption.
    + left. split; [right; reflexivity|].
      apply getMediaStream_default_path. right. exact Ef.
Qed.

Lemma find_named_in (value : option string) (msos : option (list mso))
  (m : mso) :
  find_named value msos = Some m ->
  exists l, msos = Some l /\ In m l /\ name m = value.
Proof.
  destruct msos as [l|]; simpl; [|discriminate].
  intros H. apply find_some in H. destruct H as [Hin Hn].
  exists l. repeat split; [exact Hin | apply strict_eq_true, Hn].
Qed.

(** ** Extra properties: [pickBestStream] *)

(** X1: [pickBestStream] returns [undefined] exactly on an undefined or
    empty list, and any stream it returns is one of the candidates. *)
Theorem pickBestStream_candidate (msos : option (list mso)) (r : Z) :
  (pickBestStream msos r = None <-> msos = None \/ msos = Some [])
  /\ (forall b,
        pickBestStream msos r = Some b -> exists l, msos = Some l /\ In b l).
Proof.
  split.
  - destruct msos as [[|h tl]|]; simpl.
    + split; auto.
    + split.
      * intros H. exfalso.
        apply (pickBestStream_nonempty r (h :: tl)); [discriminate | exact H].
      * intros [H|H]; discriminate.
    + split; auto.
  - intros b H. destruct msos as [l|]; [|discriminate].
    exists l. split; [reflexivity | apply (pickBestStream_in _ _ _ H)].
Qed.

Lemma pickBestStream_candidate_witness :
  exists l,
    Some [Samples.s1080p; Samples.s4k] = Some l /\ In Samples.s4k l.
Proof.
  apply (proj2 (pickBestStream_candidate
                  (Some [Samples.s1080p; Samples.s4k]) (3840 * 2160))
           Samples.s4k).
  reflexivity.
Defined.

(** X2: candidates without dimensions that are not first in the list play
    no part: dropping them from the tail leaves the result unchanged. *)
Theorem pickBestStream_skips_later_unknown (r : Z) (h : mso)
  (tl : list mso) :
  pickBestStream (Some (h :: filter hasResolution tl)) r
  = pickBestStream (Some (h :: tl)) r.
Proof.
  unfold pickBestStream.
  rewrite !pick_loop_cons, pick_step_init, pick_loop_filter. reflexivity.
Qed.

(** X3: on a target and candidates in the range of exact arithmetic, a
    candidate without dimensions is returned only from the head of the
    list, and only when no candidate after it is closer to the target than
    [Number.MAX_SAFE_INTEGER]. *)
Theorem pickBestStream_unknown_only_first (r : Z) (l : list mso) (b : mso) :
  exact_scores r l = true ->
  pickBestStream (Some l) r = Some b ->
  hasResolution b = false ->
  exists tl, l = b :: tl /\ all_ge r Js.MAX_SAFE_INTEGER tl.
Proof.
  intros _ H Hb.
  destruct l as [|h tl]; [discriminate|].
  apply score_NaN with (r := r) in Hb.
  destruct (pickBestStream_cons r h tl)
    as [[E G] | (l1 & m & l2 & s & El & E & Em & _)];
    rewrite E in H; injection H as <-.
  - exists tl. split; [reflexivity|].
    rewrite (held_score_NaN _ _ Hb) in G. exact G.
  - congruence.
Qed.

Lemma pickBestStream_unknown_only_first_witness :
  exists tl,
    [Samples.sUnknown; Samples.local1] = Samples.sUnknown :: tl
    /\ all_ge (3840 * 2160) Js.MAX_SAFE_INTEGER tl.
Proof.
  apply (pickBestStream_unknown_only_first (3840 * 2160)
           [Samples.sUnknown; Samples.local1] Samples.sUnknown);
    reflexivity.
Defined.

(** X4: the order of the candidates decides ties only: on a target and
    candidates in the range of exact arithmetic, and on two lists with the
    same candidates, results that have dimensions are at the same distance
    from the target. *)
Theorem pickBestStream_order_only_ties (r : Z) (l l' : list mso)
  (b b' : mso) :
  exact_scores r l = true ->
  Permutation l l' ->
  pickBestStream (Some l) r = Some b ->
  pickBestStream (Some l') r = Some b' ->
  hasResolution b = true -> hasResolution b' = true ->
  score r b = score r b'.
Proof.
  intros _ P H H' Hb Hb'.
  apply (score_Num r) in Hb. destruct Hb as [s Hs].
  apply (score_Num r) in Hb'. destruct Hb' as [s' Hs'].
  pose proof (pickBestStream_least _ _ _ _ H Hs) as G.
  pose proof (pickBestStream_least _ _ _ _ H' Hs') as G'.
  pose proof (pickBestStream_in _ _ _ H) as Hin.
  pose proof (pickBestStream_in _ _ _ H') as Hin'.
  assert (s <= s').
  { apply (G b'); [|exact Hs'].
    apply (Permutation_in _ (Permutation_sym P)), Hin'. }
  assert (s' <= s).
  { apply (G' b); [|exact Hs]. apply (Permutation_in _ P), Hin. }
  rewrite Hs, Hs'. f_equal. lia.
Qed.

Lemma pickBestStream_order_only_ties_witness :
  score (1280 * 720) Samples.landscape = score (1280 * 720) Samples.portrait.
Proof.
  apply (pickBestStream_order_only_ties (1280 * 720)
           [Samples.landscape; Samples.s4k; Samples.portrait]
           [Samples.portrait; Samples.landscape; Samples.s4k]
           Samples.landscape Samples.portrait).
  - reflexivity.
  - apply Permutation_sym.
    exact (Permutation_cons_append [Samples.landscape; Samples.s4k]
             Samples.portrait).
  - reflexivity.
  - reflexivity.
  - reflexivity.
  - reflexivity.
Defined.

(** ** Extra properties: the enabled streams *)

(** X5: on a defined list [getPrebufferedStreams] never returns
    [undefined]; what it returns is made of streams of the list, in the
    order of the list, and holds at most one stream when [enabledStreams]
    has no explicit value. *)
Theorem getPrebufferedStreams_current (st : StorageSettings) (l : list mso) :
  exists res,
    getPrebufferedStreams st (Some l) = Some res
    /\ subsequence res l
    /\ (hasValue_enabledStreams st = false -> (List.length res <= 1)%nat).
Proof.
  destruct (getPrebufferedStreams_sub st l) as (res & E & S).
  exists res. repeat split; try assumption.
  intros H. revert E. unfold getPrebufferedStreams, getDefaultPrebufferedStreams.
  rewrite H. simpl.
  destruct (find nonCloud l); intros [= <-]; simpl; lia.
Qed.

Lemma getPrebufferedStreams_current_witness :
  exists res,
    getPrebufferedStreams Samples.unset
      (Some [Samples.cloud1; Samples.s1080p; Samples.s4k]) = Some res
    /\ (List.length res <= 1)%nat.
Proof.
  destruct (getPrebufferedStreams_current Samples.unset
              [Samples.cloud1; Samples.s1080p; Samples.s4k])
    as (res & E & _ & H).
  exists res. split; [exact E | exact (H eq_refl)].
Defined.

(** ** Extra properties: the default media stream *)

(** X6: [getDefaultMediaStream] returns [undefined] exactly on an
    undefined or empty stream list, whatever the role and the settings,
    and any stream it returns is a stream of the list. *)
Theorem getDefaultMediaStream_candidate (st : StorageSettings)
  (v : StreamStorageSetting) (msos : option (list mso)) :
  (getDefaultMediaStream st v msos = None
   <-> msos = None \/ msos = Some [])
  /\ (forall b,
        getDefaultMediaStream st v msos = Some b ->
        exists l, msos = Some l /\ In b l).
Proof.
  split.
  - apply getDefaultMediaStream_undefined_iff.
  - intros b. apply getDefaultMediaStream_in.
Qed.

Lemma getDefaultMediaStream_candidate_witness :
  exists l,
    Some [Samples.s1080p; Samples.s4k] = Some l /\ In Samples.s1080p l.
Proof.
  apply (proj2 (getDefaultMediaStream_candidate Samples.unset
                  (streamTypes defaultStream)
                  (Some [Samples.s1080p; Samples.s4k]))
           Samples.s1080p).
  reflexivity.
Defined.

(** X7: for a role that prefers prebuffered streams, whenever some stream
    is enabled the default media stream is one of the enabled streams. *)
Theorem getDefaultMediaStream_prebuffered (st : StorageSettings)
  (v : StreamStorageSetting) (msos : option (list mso)) (e : list mso) :
  prefersPrebuffer v = true ->
  getPrebufferedStreams st msos = Some e -> e <> [] ->
  exists b, getDefaultMediaStream st v msos = Some b /\ In b e.
Proof.
  intros Hp He Hne.
  assert (P : prebufferPreferenceStreams st v msos = Some e).
  { unfold prebufferPreferenceStreams. rewrite Hp, He.
    destruct e as [|x e]; [congruence | reflexivity]. }
  unfold getDefaultMediaStream. rewrite P.
  destruct (pickBestStream (Some e) (preferredResolution v)) as [b|] eqn:E.
  - exists b. split; [reflexivity | apply (pickBestStream_in _ _ _ E)].
  - exfalso.
    apply (pickBestStream_nonempty (preferredResolution v) e Hne E).
Qed.

Lemma getDefaultMediaStream_prebuffered_witness :
  exists b,
    getDefaultMediaStream (Samples.enabled ["1080p"; "unknown"])
      (streamTypes recordingStream)
      (Some [Samples.s4k; Samples.s1080p; Samples.sUnknown]) = Some b
    /\ In b [Samples.s1080p; Samples.sUnknown].
Proof.
  apply (getDefaultMediaStream_prebuffered
           (Samples.enabled ["1080p"; "unknown"])
           (streamTypes recordingStream)
           (Some [Samples.s4k; Samples.s1080p; Samples.sUnknown])
           [Samples.s1080p; Samples.sUnknown]).
  - reflexivity.
  - reflexivity.
  - discriminate.
Defined.

(** X8: while [enabledStreams] has no explicit value, the default media
    stream of a role that prefers prebuffered streams is the first stream
    of the list that is neither cloud nor raw video, whatever the
    resolutions of the streams and the resolution the role prefers. *)
Theorem getDefaultMediaStream_first_eligible (st : StorageSettings)
  (v : StreamStorageSetting) (l1 l2 : list mso) (m : mso) :
  hasValue_enabledStreams st = false ->
  prefersPrebuffer v = true ->
  eligible m -> (forall x, In x l1 -> ~ eligible x) ->
  getDefaultMediaStream st v (Some (l1 ++ m :: l2)) = Some m.
Proof.
  intros Hh Hp Hm Hl1.
  assert (P : prebufferPreferenceStreams st v (Some (l1 ++ m :: l2))
              = Some [m]).
  { unfold prebufferPreferenceStreams, getPrebufferedStreams,
      getDefaultPrebufferedStreams.
    rewrite Hh, Hp. simpl negb. cbv iota.
    rewrite (find_first nonCloud l1 l2 m).
    - reflexivity.
    - apply nonCloud_true, Hm.
    - intros x Hx. apply nonCloud_false, Hl1, Hx. }
  unfold getDefaultMediaStream. rewrite P. apply pickBestStream_single.
Qed.

Lemma getDefaultMediaStream_first_eligible_witness :
  getDefaultMediaStream Samples.unset (streamTypes recordingStream)
    (Some ([Samples.cloud1] ++ Samples.s1080p :: [Samples.s4k]))
  = Some Samples.s1080p.
Proof.
  apply (getDefaultMediaStream_first_eligible Samples.unset
           (streamTypes recordingStream)
           [Samples.cloud1] [Samples.s4k] Samples.s1080p).
  - reflexivity.
  - reflexivity.
  - split; discriminate.
  - intros x [<-|[]] [H _]. apply H. reflexivity.
Defined.

(** ** Extra properties: the role resolver *)

(** X9: the stream resolved by [getMediaStream] is [undefined] exactly on
    an undefined or empty stream list, and is otherwise a stream of the
    list: a persisted name is never answered with a stream that the camera
    does not offer. *)
Theorem getMediaStream_stream_current (st : StorageSettings)
  (key : StreamKey) (msos : option (list mso)) :
  (stream (getMediaStream st key msos) = None
   <-> msos = None \/ msos = Some [])
  /\ (forall b,
        stream (getMediaStream st key msos) = Some b ->
        exists l, msos = Some l /\ In b l).
Proof.
  destruct (getMediaStream_cases st key msos)
    as [[_ E] | (m & _ & Ef & E)]; rewrite E; simpl.
  - split.
    + apply getDefaultMediaStream_undefined_iff.
    + intros b. apply getDefaultMediaStream_in.
  - destruct (find_named_in _ _ _ Ef) as (l & -> & Hin & _). split.
    + split; [discriminate|].
      intros [H|H]; [discriminate|]. injection H as ->. destruct Hin.
    + intros b [= <-]. exists l. split; [reflexivity | exact Hin].
Qed.

Lemma getMediaStream_stream_current_witness :
  exists l,
    Some [Samples.s4k; Samples.s1080p] = Some l /\ In Samples.s1080p l.
Proof.
  apply (proj2 (getMediaStream_stream_current (Samples.chose "720p")
                  remoteStream (Some [Samples.s4k; Samples.s1080p]))
           Samples.s1080p).
  reflexivity.
Defined.

(** X10: [getMediaStream] reports [isDefault] false exactly when the
    persisted value is not ["Default"] and is the name of a stream of the
    list. *)
Theorem getMediaStream_isDefault_false_iff (st : StorageSettings)
  (key : StreamKey) (msos : option (list mso)) :
  isDefault (getMediaStream st key msos) = false
  <-> values st key <> Some "Default"
      /\ exists l m,
           msos = Some l /\ In m l /\ name m = values st key.
Proof.
  destruct (getMediaStream_cases st key msos)
    as [[C E] | (m & Ed & Ef & E)]; rewrite E; simpl.
  - split; [discriminate|].
    intros (Hd & l & m & -> & Hin & Hn). exfalso.
    destruct C as [C|C].
    + apply strict_eq_true in C. contradiction.
    + simpl in C. pose proof (find_none _ _ C m Hin) as Hf.
      simpl in Hf. apply strict_eq_false in Hf. contradiction.
  - split; [|reflexivity]. intros _.
    split; [apply strict_eq_false, Ed|].
    destruct (find_named_in _ _ _ Ef) as (l & -> & Hin & Hn).
    exists l, m. repeat split; assumption.
Qed.

(** X11: a role that does not prefer prebuffered streams is resolved
    without looking at the enabled streams: two settings that persist the
    same value for the role give the same result. *)
Theorem getMediaStream_ignores_enabledStreams (st st' : StorageSettings)
  (key : StreamKey) (msos : option (list mso)) :
  prefersPrebuffer (streamTypes key) = false ->
  values st key = values st' key ->
  getMediaStream st key msos = getMediaStream st' key msos.
Proof.
  intros Hp Hv. unfold getMediaStream. rewrite <- Hv.
  unfold getDefaultMediaStream, prebufferPreferenceStreams.
  rewrite Hp. reflexivity.
Qed.

Lemma getMediaStream_ignores_enabledStreams_witness :
  getMediaStream Samples.unset lowResolutionStream
    (Some [Samples.s1080p; Samples.s4k])
  = getMediaStream (Samples.enabled ["4k"]) lowResolutionStream
      (Some [Samples.s1080p; Samples.s4k]).
Proof.
  apply (getMediaStream_ignores_enabledStreams Samples.unset
           (Samples.enabled ["4k"]) lowResolutionStream
           (Some [Samples.s1080p; Samples.s4k])); reflexivity.
Defined.

(** X12: the recording accessor and the local accessor resolve to the same
    stream, with the same [isDefault], whenever the two roles persist the
    same value: their entries of [streamTypes] differ in the title only. *)
Theorem getRecordingStream_as_getDefaultStream (st : StorageSettings)
  (msos : option (list mso)) :
  values st recordingStream = values st defaultStream ->
  stream (getRecordingStream st msos) = stream (getDefaultStream st msos)
  /\ isDefault (getRecordingStream st msos)
     = isDefault (getDefaultStream st msos).
Proof.
  intros Hv. unfold getRecordingStream, getDefaultStream, getMediaStream.
  rewrite Hv.
  destruct (Js.strict_eq (values st defaultStream) (Some "Default")
            || match find_named (values st defaultStream) msos with
               | Some _ => false
               | None => true
               end); split; reflexivity.
Qed.

Lemma getRecordingStream_as_getDefaultStream_witness :
  stream (getRecordingStream (Samples.chose "4k")
            (Some [Samples.s1080p; Samples.s4k]))
  = stream (getDefaultStream (Samples.chose "4k")
              (Some [Samples.s1080p; Samples.s4k]))
  /\ isDefault (getRecordingStream (Samples.chose "4k")
                  (Some [Samples.s1080p; Samples.s4k]))
     = isDefault (getDefaultStream (Samples.chose "4k")
                    (Some [Samples.s1080p; Samples.s4k])).
Proof.
  apply (getRecordingStream_as_getDefaultStream (Samples.chose "4k")
           (Some [Samples.s1080p; Samples.s4k])).
  reflexivity.
Defined.

(** ** The settings options *)

Lemma createStreamOptions_defined (st : StorageSettings) (key : StreamKey)
  (l : list mso) :
  l <> [] ->
  exists d,
    getDefaultMediaStream st (streamTypes key) (Some l) = Some d
    /\ createStreamOptions st key (Some l)
       = Returned
           (mkStreamOptions "Default"
              (description key ++ " The default for this stream is "
                 ++ template (name d) ++ ".")
              (Some "Default" :: map name l) false).
Proof.
  intros Hne. unfold createStreamOptions.
  destruct (getDefaultMediaStream st (streamTypes key) (Some l))
    as [d|] eqn:E.
  - exists d. split; reflexivity.
  - apply getDefaultMediaStream_undefined_iff in E.
    destruct E as [E|E]; congruence.
Qed.

Lemma length_gt_1_nonempty {A : Type} (l : list A) :
  (1 <? Z.of_nat (List.length l)) = true -> l <> [].
Proof. destruct l; [discriminate | discriminate]. Qed.

(** What the [try] block of [onGet] returns on a defined list. *)
Lemma onGet_try_defined (st : StorageSettings) (h : option bool)
  (l : list mso) :
  exists streams,
    onGet_try st h (Fulfilled (Some l))
    = Returned
        (mkOptions
           (Some (mkEnabledOptions
                    (option_map (map name)
                       (getDefaultPrebufferedStreams (Some l)))
                    (map name l) false))
           streams h h h)
    /\ forall key,
         if 1 <? Z.of_nat (List.length l)
         then exists x,
                createStreamOptions st key (Some l) = Returned x
                /\ streams key = Some x
         else streams key = None.
Proof.
  unfold onGet_try.
  destruct (1 <? Z.of_nat (List.length l)) eqn:Hlen.
  - pose proof (length_gt_1_nonempty l Hlen) as Hne.
    destruct (createStreamOptions_defined st defaultStream l Hne)
      as (d1 & _ & E1).
    destruct (createStreamOptions_defined st remoteStream l Hne)
      as (d2 & _ & E2).
    destruct (createStreamOptions_defined st lowResolutionStream l Hne)
      as (d3 & _ & E3).
    destruct (createStreamOptions_defined st recordingStream l Hne)
      as (d4 & _ & E4).
    destruct (createStreamOptions_defined st remoteRecordingStream l Hne)
      as (d5 & _ & E5).
    rewrite E1, E2, E3, E4, E5. unfold bind.
    eexists. split; [reflexivity|].
    intros []; eexists; (split; [eassumption | reflexivity]).
  - eexists. split; [reflexivity|]. intros key. reflexivity.
Qed.

(** X13: [createStreamOptions] throws exactly on an undefined or empty
    stream list. *)
Theorem createStreamOptions_throws_iff (st : StorageSettings)
  (key : StreamKey) (msos : option (list mso)) :
  createStreamOptions st key msos = Threw
  <-> msos = None \/ msos = Some [].
Proof.
  destruct msos as [[|x l]|].
  - split; [auto | intros _].
    unfold createStreamOptions.
    rewrite (proj2 (getDefaultMediaStream_undefined_iff
                      st (streamTypes key) (Some []))
               (or_intror eq_refl)).
    reflexivity.
  - destruct (createStreamOptions_defined st key (x :: l)) as (d & _ & E);
      [discriminate|].
    rewrite E. split; [discriminate | intros [H|H]; discriminate].
  - split; [auto | intros _; reflexivity].
Qed.

(** X14: when [createStreamOptions] returns, the choices are ["Default"]
    followed by the names of the streams in the order of the list; the
    description ends with the name of a stream of the list, that name is
    one of the choices, and that stream is the one [getMediaStream]
    resolves for the role while its persisted value is ["Default"]. *)
Theorem createStreamOptions_announces_default (st : StorageSettings)
  (key : StreamKey) (msos : option (list mso)) (o : StreamOptions) :
  createStreamOptions st key msos = Returned o ->
  exists l d,
    msos = Some l /\ In d l
    /\ so_defaultValue o = "Default"
    /\ so_choices o = Some "Default" :: map name l
    /\ In (name d) (so_choices o)
    /\ so_description o
       = (description key ++ " The default for this stream is "
            ++ template (name d) ++ ".")%string
    /\ (values st key = Some "Default" ->
        getMediaStream st key msos
        = mkResolved (title (streamTypes key)) true (Some d)).
Proof.
  intros H.
  destruct msos as [l|]; [|discriminate].
  destruct l as [|x l].
  { unfold createStreamOptions in H.
    rewrite (proj2 (getDefaultMediaStream_undefined_iff
                      st (streamTypes key) (Some []))
               (or_intror eq_refl)) in H.
    discriminate. }
  destruct (createStreamOptions_defined st key (x :: l)) as (d & Ed & E);
    [discriminate|].
  rewrite E in H. injection H as <-.
  destruct (getDefaultMediaStream_in _ _ _ _ Ed) as (l' & El & Hin).
  injection El as <-.
  exists (x :: l), d.
  split; [reflexivity|]. split; [exact Hin|].
  split; [reflexivity|]. split; [reflexivity|].
  split; [apply in_cons; exact (in_map name (x :: l) d Hin)|].
  split; [reflexivity|].
  intros Hv. rewrite getMediaStream_default_path
    by (left; rewrite Hv; reflexivity).
  rewrite Ed. reflexivity.
Qed.

Lemma createStreamOptions_announces_default_witness :
  exists l d,
    Some [Samples.s4k; Samples.s1080p] = Some l /\ In d l
    /\ so_choices
         (mkStreamOptions "Default"
            (description remoteStream
               ++ " The default for this stream is 1080p.")
            [Some "Default"; Some "4k"; Some "1080p"] false)
       = Some "Default" :: map name l
    /\ getMediaStream Samples.unset remoteStream
         (Some [Samples.s4k; Samples.s1080p])
       = mkResolved (title (streamTypes remoteStream)) true (Some d).
Proof.
  destruct (createStreamOptions_announces_default Samples.unset remoteStream
              (Some [Samples.s4k; Samples.s1080p])
              (mkStreamOptions "Default"
                 (description remoteStream
                    ++ " The default for this stream is 1080p.")
                 [Some "Default"; Some "4k"; Some "1080p"] false)
              eq_refl)
    as (l & d & El & Hin & _ & Hc & _ & _ & Hg).
  exists l, d. repeat split; try assumption. exact (Hg eq_refl).
Defined.

(** X15: [onGet] runs its [catch] block exactly when the stream query
    throws or gives an undefined list: building the options never throws
    on a defined list.  After the [catch] block the result has neither the
    [enabledStreams] entry nor an entry for a role. *)
Theorem onGet_catch_iff (st : StorageSettings) (mixins : option (list string))
  (providerId : option string) (f : fetched) :
  (snd (onGet st mixins providerId f) = true
   <-> f = Rejected \/ f = Fulfilled None)
  /\ (snd (onGet st mixins providerId f) = true ->
      o_enabledStreams (fst (onGet st mixins providerId f)) = None
      /\ forall key, o_streams (fst (onGet st mixins providerId f)) key = None).
Proof.
  unfold onGet.
  set (h := if match mixins with
               | Some m => Js.includes m providerId
               | None => false
               end then Some false else None).
  destruct f as [|[l|]].
  - simpl. split; [split; auto | intros _; split; reflexivity].
  - destruct (onGet_try_defined st h l) as (streams & E & _).
    rewrite E. simpl. split.
    + split; [discriminate | intros [H|H]; discriminate].
    + discriminate.
  - simpl. split; [split; auto | intros _; split; reflexivity].
Qed.

Lemma onGet_catch_iff_witness :
  o_enabledStreams (fst (onGet Samples.unset None None Rejected)) = None
  /\ forall key,
       o_streams (fst (onGet Samples.unset None None Rejected)) key = None.
Proof.
  apply (proj2 (onGet_catch_iff Samples.unset None None Rejected)).
  reflexivity.
Defined.

(** X16: on a defined stream list [onGet] returns the [enabledStreams]
    entry, whose choices are the names of the streams in the order of the
    list and whose default value holds at most one name, taken from the
    choices; it returns an entry for every role, the one
    [createStreamOptions] builds, when the list has more than one stream,
    and an entry for no role otherwise. *)
Theorem onGet_entries (st : StorageSettings) (mixins : option (list string))
  (providerId : option string) (l : list mso) :
  exists es dv,
    o_enabledStreams (fst (onGet st mixins providerId (Fulfilled (Some l))))
    = Some es
    /\ es_choices es = map name l
    /\ es_hide es = false
    /\ es_defaultValue es = Some dv
    /\ (List.length dv <= 1)%nat
    /\ (forall n, In n dv -> In n (es_choices es))
    /\ forall key,
         ((1 < List.length l)%nat ->
          exists x,
            createStreamOptions st key (Some l) = Returned x
            /\ o_streams
                 (fst (onGet st mixins providerId (Fulfilled (Some l)))) key
               = Some x)
         /\ ((List.length l <= 1)%nat ->
             o_streams
               (fst (onGet st mixins providerId (Fulfilled (Some l)))) key
             = None).
Proof.
  unfold onGet.
  set (h := if match mixins with
               | Some m => Js.includes m providerId
               | None => false
               end then Some false else None).
  destruct (onGet_try_defined st h l) as (streams & E & Hs).
  destruct (getPrebufferedStreams_sub (mkStorage false [] (fun _ => None)) l)
    as (res & Er & S).
  assert (Ed : getDefaultPrebufferedStreams (Some l) = Some res)
    by exact Er.
  assert (Hlen : (List.length res <= 1)%nat).
  { revert Ed. unfold getDefaultPrebufferedStreams.
    destruct (find nonCloud l); intros [= <-]; simpl; lia. }
  rewrite Ed in E. rewrite E.
  exists (mkEnabledOptions (Some (map name res)) (map name l) false),
    (map name res).
  split; [reflexivity|]. split; [reflexivity|].
  split; [reflexivity|]. split; [reflexivity|].
  split; [rewrite length_map; exact Hlen|].
  split.
  - intros n Hn. apply in_map_iff in Hn. destruct Hn as (x & <- & Hx).
    exact (in_map name l x (subsequence_In _ _ S x Hx)).
  - intros key. specialize (Hs key). split.
    + intros Hgt.
      assert (Hb : (1 <? Z.of_nat (List.length l)) = true)
        by (apply Z.ltb_lt; lia).
      rewrite Hb in Hs. exact Hs.
    + intros Hle.
      assert (Hb : (1 <? Z.of_nat (List.length l)) = false)
        by (apply Z.ltb_ge; lia).
      rewrite Hb in Hs. exact Hs.
Qed.

Lemma onGet_entries_witness :
  exists x,
    createStreamOptions Samples.unset remoteStream
      (Some [Samples.s4k; Samples.s1080p]) = Returned x
    /\ o_streams
         (fst (onGet Samples.unset None None
                 (Fulfilled (Some [Samples.s4k; Samples.s1080p]))))
         remoteStream
       = Some x.
Proof.
  destruct (onGet_entries Samples.unset None None
              [Samples.s4k; Samples.s1080p])
    as (es & dv & _ & _ & _ & _ & _ & _ & H).
  apply (proj1 (H remoteStream)). simpl. lia.
Defined.

(** X17: whatever the stream query gives, the three transcode entries of
    the result of [onGet] are the same object, and it unhides them exactly
    when [device.mixins] holds the id of the transcode mixin provider. *)
Theorem onGet_transcode_entries (st : StorageSettings)
  (mixins : option (list string)) (providerId : option string)
  (f : fetched) :
  o_transcodeStreams (fst (onGet st mixins providerId f))
  = o_missingCodecParameters (fst (onGet st mixins providerId f))
  /\ o_missingCodecParameters (fst (onGet st mixins providerId f))
     = o_videoDecoderArguments (fst (onGet st mixins providerId f))
  /\ (o_transcodeStreams (fst (onGet st mixins providerId f)) = Some false
      \/ o_transcodeStreams (fst (onGet st mixins providerId f)) = None)
  /\ (o_transcodeStreams (fst (onGet st mixins providerId f)) = Some false
      <-> exists m p, mixins = Some m /\ providerId = Some p /\ In p m).
Proof.
  assert (Hh : forall h : bool,
             (h = true <-> exists m p,
                 mixins = Some m /\ providerId = Some p /\ In p m) ->
             ((if h then Some false else @None bool) = Some false
              \/ (if h then Some false else @None bool) = None)
             /\ ((if h then Some false else @None bool) = Some false
                 <-> exists m p,
                     mixins = Some m /\ providerId = Some p /\ In p m)).
  { intros h Hiff. destruct h.
    - split; [left; reflexivity|]. split; [intros _; apply Hiff; reflexivity
                                          | reflexivity].
    - split; [right; reflexivity|]. split; [discriminate|].
      intros H. apply Hiff in H. discriminate. }
  assert (Hm : (match mixins with
                | Some m => Js.includes m providerId
                | None => false
                end) = true
               <-> exists m p,
                   mixins = Some m /\ providerId = Some p /\ In p m).
  { destruct mixins as [m|].
    - rewrite includes_true. split.
      + intros (p & -> & Hp). exists m, p. auto.
      + intros (m' & p & [= <-] & -> & Hp). exists p. auto.
    - split; [discriminate | intros (m & p & H & _); discriminate]. }
  specialize (Hh _ Hm).
  unfold onGet.
  set (h := if match mixins with
               | Some m => Js.includes m providerId
               | None => false
               end then Some false else None) in *.
  destruct f as [|[l|]].
  - simpl. repeat split; apply Hh.
  - destruct (onGet_try_defined st h l) as (streams & E & _).
    rewrite E. simpl. repeat split; apply Hh.
  - simpl. repeat split; apply Hh.
Qed.
